(** * A ledger of bank accounts: Account and Bank of main.py

    The development embeds the two classes of [main.py]: [Account]
    (balance and transaction history of one holder) and [Bank] (the dict of
    accounts, transfers between them, and the JSON snapshot on disk), and
    proves the properties the specification states about them.

    Conventions of the embedding:
    - A Python method that mutates [self] and may raise is a function from
      the state before the call to an outcome and the state after it.  The
      state after a [raise] is the state at the raise: whatever was mutated
      before the exception stays mutated, exactly as in Python.
    - Amounts are Python [int]s, that is, unbounded integers [Z]; the
      rounding of binary floating point is outside the model.
    - [datetime.now().strftime(...)] reads the wall clock; the string it
      returns is an input [now] of the method that reads it.
    - [self.accounts] is a dict whose slots each hold their own [Account]
      object (they are only ever created by [create_account] and
      [load_data], one fresh object per key, and never handed out), so the
      object store is the dict itself and a reference to an account object
      is its key.
    - A file holds the JSON document [json.dump] wrote; the text layout
      ([indent=4]) is not modelled, the tree of values is. *)

From Stdlib Require Import ZArith String Ascii DecimalString.
From stdpp Require Import base option list gmap strings fin_maps.

Local Open Scope string_scope.
Local Open Scope list_scope.
Local Open Scope Z_scope.

(** ** Exceptions, and methods as state transformers that may raise *)

Inductive exn : Type :=
  | ValueError (msg : string)
  | InsufficientFundsError (msg : string)
  | AccountNotFoundError (msg : string)
  | KeyError (key : string)
  | FileNotFoundError (filename : string).

(** The error kinds of the specification.  In the code [InvalidAmount],
    [DuplicateAccount] and [SameAccountTransfer] are all [ValueError]s and
    differ by their message. *)
Inductive kind : Type :=
  | InvalidAmount
  | InsufficientFunds
  | AccountNotFound
  | DuplicateAccount
  | SameAccountTransfer.

Definition M (S A : Type) : Type := S → (exn + A) * S.

Definition ret {S A} (a : A) : M S A := λ s, (inr a, s).

Definition raise {S A} (e : exn) : M S A := λ s, (inl e, s).

Definition bind {S A B} (m : M S A) (k : A → M S B) : M S B :=
  λ s, match m s with
       | (inl e, s') => (inl e, s')
       | (inr a, s') => k a s'
       end.

Definition gets {S A} (f : S → A) : M S A := λ s, (inr (f s), s).

Definition modify {S} (f : S → S) : M S unit := λ s, (inr tt, f s).

(** [try: body except <handled>: handler] *)
Definition try_except {S A} (body : M S A) (handled : exn → bool)
    (handler : M S A) : M S A :=
  λ s, match body s with
       | (inl e, s') => if handled e then handler s' else (inl e, s')
       | (inr a, s') => (inr a, s')
       end.

Declare Scope py_scope.
Delimit Scope py_scope with py.
Notation "'let*' x ':=' m 'in' k" := (bind m (λ x, k))
  (at level 10, x name, m at level 100, k at level 200,
   only parsing) : py_scope.
Notation "m '>>' k" := (bind m (λ _, k))
  (at level 100, k at level 200, right associativity, only parsing) : py_scope.
Local Open Scope py_scope.

(** ** Text *)

(** The rupee sign of the messages, as its three UTF-8 bytes. *)
Definition rupee : string :=
  String "226"%char (String "130"%char (String "185"%char EmptyString)).

(** [f"{amount}"] for an [int]. *)
Definition str (amount : Z) : string := NilZero.string_of_int (Z.to_int amount).

(** ** class Account *)

(** One entry of [transactions].  The methods append 2-tuples
    [(timestamp, description)]; [json.load] brings every entry back as a
    list, and in Python a tuple never equals a list. *)
Inductive entry : Type :=
  | Tuple (timestamp description : string)
  | JList (items : list string).

Record Account : Type := mkAccount {
  account_number : string;
  name : string;
  balance : Z;
  transactions : list entry
}.

(** [Account(account_number, name, balance)] *)
Definition Account_init (account_number name : string) (balance : Z) : Account :=
  mkAccount account_number name balance [].

Definition set_balance (b : Z) (self : Account) : Account :=
  mkAccount (account_number self) (name self) b (transactions self).

Definition set_transactions (t : list entry) (self : Account) : Account :=
  mkAccount (account_number self) (name self) (balance self) t.

(** [self.transactions.append(e)] *)
Definition transactions_append (e : entry) (self : Account) : Account :=
  set_transactions (transactions self ++ [e]) self.

Definition deposit (now : string) (amount : Z) : M Account unit :=
  if amount <=? 0 then raise (ValueError "Deposit amount must be positive.")
  else
    modify (λ self, set_balance (balance self + amount) self) >>
    modify (transactions_append (Tuple now ("Deposited " +:+ rupee +:+ str amount))).

Definition withdraw (now : string) (amount : Z) : M Account unit :=
  if amount <=? 0 then raise (ValueError "Withdrawal amount must be positive.")
  else
    let* b := gets balance in
    if amount >? b
    then raise (InsufficientFundsError "Insufficient funds for withdrawal.")
    else
      modify (λ self, set_balance (balance self - amount) self) >>
      modify (transactions_append (Tuple now ("Withdrew " +:+ rupee +:+ str amount))).

Definition get_balance : M Account Z := gets balance.

Definition get_transaction_history : M Account (list entry) := gets transactions.

(** ** class Bank *)

(** The value [json.dump] writes for one account, and [json.load] reads
    back: an object with the keys "name", "balance" and "transactions", the
    last an array of arrays of strings (JSON has no tuples). *)
Record json_account : Type := mkJson {
  json_name : string;
  json_balance : Z;
  json_transactions : list (list string)
}.

Record Bank : Type := mkBank {
  bank_name : string;
  accounts : gmap string Account
}.

(** What a [Bank] method can read and change: the bank object itself, the
    lines printed so far, and the files on disk. *)
Record World : Type := mkWorld {
  self : Bank;
  stdout : list string;
  files : gmap string (gmap string json_account)
}.

(** [Bank(name)] *)
Definition Bank_init (name : string) : Bank := mkBank name ∅.

Definition set_accounts (f : gmap string Account → gmap string Account)
    (w : World) : World :=
  mkWorld (mkBank (bank_name (self w)) (f (accounts (self w)))) (stdout w) (files w).

Definition print (line : string) : M World unit :=
  modify (λ w, mkWorld (self w) (stdout w ++ [line]) (files w)).

(** A reference to an account object of the bank. *)
Definition ref : Type := string.

(** [acc.method(...)] for a reference [acc] obtained from [self.accounts]:
    the method runs on the object in that slot and the object keeps what the
    method did to it, also when the method raises. *)
Definition call {A} (acc : ref) (method : M Account A) : M World A :=
  λ w, match accounts (self w) !! acc with
       | None => (inl (KeyError acc), w)
       | Some obj =>
           let '(r, obj') := method obj in
           (r, set_accounts (insert acc obj') w)
       end.

Definition create_account (account_number name : string) (initial_deposit : Z)
    : M World unit :=
  let* accs := gets (λ w, accounts (self w)) in
  if bool_decide (account_number ∈ dom accs)
  then raise (ValueError "Account number already exists.")
  else
    modify (set_accounts
              (insert account_number (Account_init account_number name initial_deposit))) >>
    print ("Account created successfully for " +:+ name +:+
           " (A/C No: " +:+ account_number +:+ ")").

Definition get_account (account_number : string) : M World ref :=
  let* accs := gets (λ w, accounts (self w)) in
  if negb (bool_decide (account_number ∈ dom accs))
  then raise (AccountNotFoundError "Account not found.")
  else ret account_number.

Definition deposit_to_account (now : string) (account_number : string)
    (amount : Z) : M World unit :=
  let* acc := get_account account_number in
  call acc (deposit now amount) >>
  print (" " +:+ rupee +:+ str amount +:+ " deposited to A/C " +:+ account_number).

Definition withdraw_from_account (now : string) (account_number : string)
    (amount : Z) : M World unit :=
  let* acc := get_account account_number in
  call acc (withdraw now amount) >>
  print (" " +:+ rupee +:+ str amount +:+ " withdrawn from A/C " +:+ account_number).

(** [now_w] and [now_d] are the clock readings of the withdrawal and of the
    deposit. *)
Definition transfer (now_w now_d : string) (from_acc_no to_acc_no : string)
    (amount : Z) : M World unit :=
  if bool_decide (from_acc_no = to_acc_no)
  then raise (ValueError "Cannot transfer to the same account.")
  else
    let* from_acc := get_account from_acc_no in
    let* to_acc := get_account to_acc_no in
    if amount <=? 0 then raise (ValueError "Transfer amount must be positive.")
    else
      call from_acc (withdraw now_w amount) >>
      call to_acc (deposit now_d amount) >>
      print (rupee +:+ str amount +:+ " transferred from A/C " +:+ from_acc_no +:+
             " to A/C " +:+ to_acc_no).

(** *** Persistence *)

(** How [json.dump] encodes one history entry: a tuple and a list both
    become an array. *)
Definition json_of_entry (e : entry) : list string :=
  match e with
  | Tuple timestamp description => [timestamp; description]
  | JList items => items
  end.

(** The inner dict of the comprehension of [save_data], as [json.dump]
    encodes it. *)
Definition json_of_account (acc : Account) : json_account :=
  mkJson (name acc) (balance acc) (json_of_entry <$> transactions acc).

(** [with open(filename, "w") as f: json.dump(data, f, indent=4)] *)
Definition write_json (filename : string) (data : gmap string json_account)
    : M World unit :=
  modify (λ w, mkWorld (self w) (stdout w) (<[filename := data]> (files w))).

(** [with open(filename, "r") as f: data = json.load(f)] *)
Definition read_json (filename : string) : M World (gmap string json_account) :=
  let* fs := gets files in
  match fs !! filename with
  | None => raise (FileNotFoundError filename)
  | Some data => ret data
  end.

Definition save_data (filename : string) : M World unit :=
  let* accs := gets (λ w, accounts (self w)) in
  let data := json_of_account <$> accs in
  write_json filename data >>
  print " Bank data saved successfully.".

(** The body of the loop of [load_data].  The loop runs it once for every
    account number of the file; the numbers of a JSON object read by
    [json.load] are distinct, so the order of the iterations does not show
    in the result. *)
Definition load_item (acc_no : string) (info : json_account)
    (accs : gmap string Account) : gmap string Account :=
  let acc := Account_init acc_no (json_name info) (json_balance info) in
  let acc := set_transactions (JList <$> json_transactions info) acc in
  <[acc_no := acc]> accs.

Definition is_FileNotFoundError (e : exn) : bool :=
  match e with FileNotFoundError _ => true | _ => false end.

Definition load_data (filename : string) : M World unit :=
  try_except
    (let* data := read_json filename in
     modify (set_accounts (λ accs, map_fold load_item accs data)) >>
     print " Bank data loaded successfully.")
    is_FileNotFoundError
    (print " No previous data found. Starting fresh.").

(** ** The error kinds of the specification, read off the exception *)

Definition kind_of (e : exn) : option kind :=
  match e with
  | ValueError msg =>
      if bool_decide (msg = "Deposit amount must be positive.") then Some InvalidAmount
      else if bool_decide (msg = "Withdrawal amount must be positive.") then Some InvalidAmount
      else if bool_decide (msg = "Transfer amount must be positive.") then Some InvalidAmount
      else if bool_decide (msg = "Account number already exists.") then Some DuplicateAccount
      else if bool_decide (msg = "Cannot transfer to the same account.") then Some SameAccountTransfer
      else None
  | InsufficientFundsError _ => Some InsufficientFunds
  | AccountNotFoundError _ => Some AccountNotFound
  | KeyError _ | FileNotFoundError _ => None
  end.





(** The sum of the balances of a bank. *)
Definition total_balance (accs : gmap string Account) : Z :=
  map_fold (λ _ acc sum, balance acc + sum) 0 accs.

(** ** Example states *)

(** A process that has just started, with no file on disk. *)
Definition fresh_world : World := mkWorld (Bank_init "AI National Bank") [] ∅.

(** The ledger of the example scenario of the specification after its
    first transfer: Asha holds 400 and Ravi 300. *)
Definition scenario_world : World :=
  snd ((create_account "1001" "Asha" 500 >>
        deposit_to_account "2024-01-01 10:00:00" "1001" 200 >>
        create_account "1002" "Ravi" 0 >>
        transfer "2024-01-01 10:05:00" "2024-01-01 10:05:01" "1001" "1002" 300)
         fresh_world).

(** The ledger of the round-trip example of the specification: account A
    with balance 100 and two history entries, account B with balance 50 and
    none. *)
Definition roundtrip_world : World :=
  snd ((create_account "A" "Asha" 0 >>
        deposit_to_account "2024-01-01 10:00:00" "A" 150 >>
        withdraw_from_account "2024-01-01 10:01:00" "A" 50 >>
        create_account "B" "Ravi" 50)
         fresh_world).

(** ** A caller of the bank *)

(** The calls a front end makes on the bank.  [run_commands] makes them one
    after the other and, like the loop of [main] with its
    [except Exception], carries on after a call that raised. *)
Inductive command : Type :=
  | CreateAccount (account_number name : string) (initial_deposit : Z)
  | DepositTo (now account_number : string) (amount : Z)
  | WithdrawFrom (now account_number : string) (amount : Z)
  | Transfer (now_w now_d from_acc_no to_acc_no : string) (amount : Z)
  | SaveData (filename : string)
  | LoadData (filename : string).

Definition run_command (c : command) : M World unit :=
  match c with
  | CreateAccount account_number name initial_deposit =>
      create_account account_number name initial_deposit
  | DepositTo now account_number amount =>
      deposit_to_account now account_number amount
  | WithdrawFrom now account_number amount =>
      withdraw_from_account now account_number amount
  | Transfer now_w now_d from_acc_no to_acc_no amount =>
      transfer now_w now_d from_acc_no to_acc_no amount
  | SaveData filename => save_data filename
  | LoadData filename => load_data filename
  end.

Definition run_commands (cs : list command) (w : World) : World :=
  foldl (λ w c, snd (run_command c w)) w cs.


Definition is_LoadData (c : command) : bool :=
  match c with LoadData _ => true | _ => false end.

Definition is_SaveData (c : command) : bool :=
  match c with SaveData _ => true | _ => false end.


(** What a call that returned has done to the world, case by case. *)
Inductive effect : command → World → World → Prop :=
  | effect_created k name d w :
      accounts (self w) !! k = None →
      effect (CreateAccount k name d) w
        (mkWorld
           (mkBank (bank_name (self w))
              (<[k := Account_init k name d]> (accounts (self w))))
           (stdout w ++ ["Account created successfully for " +:+ name +:+
                         " (A/C No: " +:+ k +:+ ")"])
           (files w))
  | effect_deposited now k amount acc w :
      accounts (self w) !! k = Some acc →
      0 < amount →
      effect (DepositTo now k amount) w
        (mkWorld
           (mkBank (bank_name (self w))
              (<[k := snd (deposit now amount acc)]> (accounts (self w))))
           (stdout w ++ [" " +:+ rupee +:+ str amount +:+ " deposited to A/C " +:+ k])
           (files w))
  | effect_withdrawn now k amount acc w :
      accounts (self w) !! k = Some acc →
      0 < amount ≤ balance acc →
      effect (WithdrawFrom now k amount) w
        (mkWorld
           (mkBank (bank_name (self w))
              (<[k := snd (withdraw now amount acc)]> (accounts (self w))))
           (stdout w ++ [" " +:+ rupee +:+ str amount +:+ " withdrawn from A/C " +:+ k])
           (files w))
  | effect_transferred now_w now_d k_f k_t amount acc_f acc_t w :
      k_f ≠ k_t →
      accounts (self w) !! k_f = Some acc_f →
      accounts (self w) !! k_t = Some acc_t →
      0 < amount ≤ balance acc_f →
      effect (Transfer now_w now_d k_f k_t amount) w
        (mkWorld
           (mkBank (bank_name (self w))
              (<[k_t := snd (deposit now_d amount acc_t)]>
                 (<[k_f := snd (withdraw now_w amount acc_f)]> (accounts (self w)))))
           (stdout w ++ [rupee +:+ str amount +:+ " transferred from A/C " +:+
                         k_f +:+ " to A/C " +:+ k_t])
           (files w))
  | effect_saved filename w :
      effect (SaveData filename) w
        (mkWorld (self w) (stdout w ++ [" Bank data saved successfully."])
           (<[filename := json_of_account <$> accounts (self w)]> (files w)))
  | effect_loaded filename data w :
      files w !! filename = Some data →
      effect (LoadData filename) w
        (mkWorld
           (mkBank (bank_name (self w)) (map_fold load_item (accounts (self w)) data))
           (stdout w ++ [" Bank data loaded successfully."])
           (files w))
  | effect_nothing_to_load filename w :
      files w !! filename = None →
      effect (LoadData filename) w
        (mkWorld (self w) (stdout w ++ [" No previous data found. Starting fresh."])
           (files w)).

(** Every account sits in the slot of its own number. *)
Definition keyed (accs : gmap string Account) : Prop :=
  map_Forall (λ k acc, account_number acc = k) accs.



(** Every history entry is a list, as after [load_data]. *)
Definition all_lists (accs : gmap string Account) : Prop :=
  map_Forall (λ _ acc, Forall (λ e, ∃ items, e = JList items) (transactions acc)) accs.

(** [acc'] is [acc] later in its life: the same number and holder, and a
    history that continues the history of [acc]. *)
Definition extends (acc acc' : Account) : Prop :=
  account_number acc' = account_number acc ∧
  name acc' = name acc ∧
  transactions acc `prefix_of` transactions acc'.

(** The accounts a fresh bank holds after loading the file that
    [save_data] writes for [accs]. *)
Definition reloaded (accs : gmap string Account) : gmap string Account :=
  map_fold load_item ∅ (json_of_account <$> accs).

(** ** Proof steps *)

(** The call raises, with the world untouched: [tac] shows the equation,
    which fixes the exception, and the exception is then one of the kinds. *)
Ltac raises_by tac := left; eexists; split; [tac | by eexists].

(** The call returns: [tac] shows the equation, [eff] the effect. *)
Ltac returns_by tac eff := right; eexists; split; [tac | eff].

(** * Properties *)

(** ** Account *)

Lemma deposit_raises now amount acc :
  amount ≤ 0 →
  deposit now amount acc = (inl (ValueError "Deposit amount must be positive."), acc).
Proof.
  intros Hle. unfold deposit.
  destruct (Z.leb_spec amount 0); [reflexivity | lia].
Qed.

Lemma deposit_returns now amount acc :
  0 < amount →
  deposit now amount acc =
    (inr tt, mkAccount (account_number acc) (name acc) (balance acc + amount)
               (transactions acc ++ [Tuple now ("Deposited " +:+ rupee +:+ str amount)])).
Proof.
  intros Hpos. unfold deposit.
  destruct (Z.leb_spec amount 0); [lia | reflexivity].
Qed.

Lemma withdraw_raises_invalid now amount acc :
  amount ≤ 0 →
  withdraw now amount acc =
    (inl (ValueError "Withdrawal amount must be positive."), acc).
Proof.
  intros Hle. unfold withdraw.
  destruct (Z.leb_spec amount 0); [reflexivity | lia].
Qed.

Lemma withdraw_raises_insufficient now amount acc :
  0 < amount → balance acc < amount →
  withdraw now amount acc =
    (inl (InsufficientFundsError "Insufficient funds for withdrawal."), acc).
Proof.
  intros Hpos Hgt. unfold withdraw.
  destruct (Z.leb_spec amount 0); [lia |].
  unfold bind, gets.
  destruct (Z.gtb_spec amount (balance acc)); [reflexivity | lia].
Qed.

Lemma withdraw_returns now amount acc :
  0 < amount → amount ≤ balance acc →
  withdraw now amount acc =
    (inr tt, mkAccount (account_number acc) (name acc) (balance acc - amount)
               (transactions acc ++ [Tuple now ("Withdrew " +:+ rupee +:+ str amount)])).
Proof.
  intros Hpos Hle. unfold withdraw.
  destruct (Z.leb_spec amount 0); [lia |].
  unfold bind, gets.
  destruct (Z.gtb_spec amount (balance acc)); [lia | reflexivity].
Qed.









(** Withdrawing the whole balance of 500, then one unit more than the
    balance, on a concrete account. *)
Example withdraw_whole_balance :
  withdraw "2024-01-01 10:00:00" 500 (Account_init "1001" "Asha" 500)
  = (inr tt, mkAccount "1001" "Asha" 0
               [Tuple "2024-01-01 10:00:00" ("Withdrew " +:+ rupee +:+ "500")]).
Proof. reflexivity. Qed.

Example withdraw_one_too_many :
  withdraw "2024-01-01 10:00:00" 501 (Account_init "1001" "Asha" 500)
  = (inl (InsufficientFundsError "Insufficient funds for withdrawal."),
     Account_init "1001" "Asha" 500).
Proof. reflexivity. Qed.

(** On a balance of zero, the balance itself is not a valid amount. *)
Example withdraw_zero_of_zero :
  withdraw "2024-01-01 10:00:00" 0 (Account_init "1002" "Ravi" 0)
  = (inl (ValueError "Withdrawal amount must be positive."),
     Account_init "1002" "Ravi" 0).
Proof. reflexivity. Qed.


Example deposit_two_hundred :
  deposit "2024-01-01 10:00:00" 200 (Account_init "1001" "Asha" 500)
  = (inr tt, mkAccount "1001" "Asha" 700
               [Tuple "2024-01-01 10:00:00" ("Deposited " +:+ rupee +:+ "200")]).
Proof. reflexivity. Qed.

Example deposit_nothing :
  deposit "2024-01-01 10:00:00" 0 (Account_init "1001" "Asha" 500)
  = (inl (ValueError "Deposit amount must be positive."),
     Account_init "1001" "Asha" 500).
Proof. reflexivity. Qed.



(** ** Bank *)

Section bank_lemmas.
Implicit Types (w : World) (acc : Account) (accs : gmap string Account).

Lemma set_accounts_insert_id k acc w :
  accounts (self w) !! k = Some acc → set_accounts (insert k acc) w = w.
Proof.
  destruct w as [[bn accs] out fs]. unfold set_accounts. simpl. intros Hk.
  by rewrite insert_id.
Qed.

Lemma get_account_found k w :
  k ∈ dom (accounts (self w)) → get_account k w = (inr k, w).
Proof.
  intros Hk. unfold get_account, bind, gets. by rewrite bool_decide_true.
Qed.

Lemma get_account_missing k w :
  k ∉ dom (accounts (self w)) →
  get_account k w = (inl (AccountNotFoundError "Account not found."), w).
Proof.
  intros Hk. unfold get_account, bind, gets. by rewrite bool_decide_false.
Qed.

Lemma call_found {A} k (method : M Account A) acc w :
  accounts (self w) !! k = Some acc →
  call k method w =
    (fst (method acc), set_accounts (insert k (snd (method acc))) w).
Proof. intros Hk. unfold call. rewrite Hk. by destruct (method acc). Qed.

(** A call that raises inside a method which leaves the object alone
    leaves the world alone. *)
Lemma call_raise_unchanged {A} k (method : M Account A) acc e w :
  accounts (self w) !! k = Some acc →
  method acc = (inl e, acc) →
  call k method w = (inl e, w).
Proof.
  intros Hk Hm. rewrite (call_found _ _ _ _ Hk), Hm. simpl.
  by rewrite set_accounts_insert_id.
Qed.


(** *** The five ways through [transfer] *)

Lemma transfer_raises_same now_w now_d k amount w :
  transfer now_w now_d k k amount w =
    (inl (ValueError "Cannot transfer to the same account."), w).
Proof. unfold transfer. by rewrite bool_decide_true. Qed.

Lemma transfer_raises_missing now_w now_d from_acc_no to_acc_no amount w :
  from_acc_no ≠ to_acc_no →
  from_acc_no ∉ dom (accounts (self w)) ∨ to_acc_no ∉ dom (accounts (self w)) →
  transfer now_w now_d from_acc_no to_acc_no amount w =
    (inl (AccountNotFoundError "Account not found."), w).
Proof.
  intros Hne Hmiss. unfold transfer. rewrite bool_decide_false by done.
  unfold bind at 1.
  destruct (decide (from_acc_no ∈ dom (accounts (self w)))) as [Hfrom|Hfrom].
  - rewrite get_account_found by done. unfold bind at 1.
    rewrite get_account_missing; [done | tauto].
  - by rewrite get_account_missing.
Qed.

Lemma transfer_raises_amount now_w now_d from_acc_no to_acc_no amount w :
  from_acc_no ≠ to_acc_no →
  from_acc_no ∈ dom (accounts (self w)) → to_acc_no ∈ dom (accounts (self w)) →
  amount ≤ 0 →
  transfer now_w now_d from_acc_no to_acc_no amount w =
    (inl (ValueError "Transfer amount must be positive."), w).
Proof.
  intros Hne Hfrom Hto Hle. unfold transfer. rewrite bool_decide_false by done.
  unfold bind at 1. rewrite get_account_found by done.
  unfold bind at 1. rewrite get_account_found by done.
  destruct (Z.leb_spec amount 0); [done | lia].
Qed.

Lemma transfer_raises_insufficient now_w now_d from_acc_no to_acc_no amount w acc :
  from_acc_no ≠ to_acc_no →
  accounts (self w) !! from_acc_no = Some acc →
  to_acc_no ∈ dom (accounts (self w)) →
  0 < amount → balance acc < amount →
  transfer now_w now_d from_acc_no to_acc_no amount w =
    (inl (InsufficientFundsError "Insufficient funds for withdrawal."), w).
Proof.
  intros Hne Hfrom Hto Hpos Hgt. unfold transfer.
  rewrite bool_decide_false by done.
  unfold bind at 1. rewrite get_account_found by (by apply elem_of_dom).
  unfold bind at 1. rewrite get_account_found by done.
  destruct (Z.leb_spec amount 0); [lia|].
  unfold bind at 1.
  by rewrite (call_raise_unchanged _ _ acc
                (InsufficientFundsError "Insufficient funds for withdrawal."))
    by auto using withdraw_raises_insufficient.
Qed.

Lemma transfer_returns now_w now_d from_acc_no to_acc_no amount w acc_f acc_t :
  from_acc_no ≠ to_acc_no →
  accounts (self w) !! from_acc_no = Some acc_f →
  accounts (self w) !! to_acc_no = Some acc_t →
  0 < amount → amount ≤ balance acc_f →
  transfer now_w now_d from_acc_no to_acc_no amount w =
    (inr tt,
     mkWorld
       (mkBank (bank_name (self w))
          (<[to_acc_no := snd (deposit now_d amount acc_t)]>
             (<[from_acc_no := snd (withdraw now_w amount acc_f)]>
                (accounts (self w)))))
       (stdout w ++ [rupee +:+ str amount +:+ " transferred from A/C " +:+
                     from_acc_no +:+ " to A/C " +:+ to_acc_no])
       (files w)).
Proof.
  intros Hne Hfrom Hto Hpos Hle. unfold transfer.
  rewrite bool_decide_false by done.
  unfold bind at 1. rewrite get_account_found by (by apply elem_of_dom).
  unfold bind at 1. rewrite get_account_found by (by apply elem_of_dom).
  destruct (Z.leb_spec amount 0); [lia|].
  unfold bind at 1. rewrite (call_found _ _ _ _ Hfrom).
  rewrite withdraw_returns by done. simpl.
  unfold bind at 1. erewrite call_found; last first.
  { simpl. rewrite lookup_insert_ne by done. exact Hto. }
  rewrite deposit_returns by done. reflexivity.
Qed.


Lemma transfer_return_inv now_w now_d from_acc_no to_acc_no amount w w' :
  transfer now_w now_d from_acc_no to_acc_no amount w = (inr tt, w') →
  ∃ acc_f acc_t,
    from_acc_no ≠ to_acc_no ∧
    accounts (self w) !! from_acc_no = Some acc_f ∧
    accounts (self w) !! to_acc_no = Some acc_t ∧
    0 < amount ≤ balance acc_f ∧
    accounts (self w') =
      <[to_acc_no := snd (deposit now_d amount acc_t)]>
        (<[from_acc_no := snd (withdraw now_w amount acc_f)]> (accounts (self w))).
Proof.
  destruct (decide (from_acc_no = to_acc_no)) as [->|Hne].
  { by rewrite transfer_raises_same. }
  destruct (accounts (self w) !! from_acc_no) as [acc_f|] eqn:Hfrom; last first.
  { apply not_elem_of_dom in Hfrom. by rewrite transfer_raises_missing by auto. }
  destruct (accounts (self w) !! to_acc_no) as [acc_t|] eqn:Hto; last first.
  { apply not_elem_of_dom in Hto. by rewrite transfer_raises_missing by auto. }
  assert (from_acc_no ∈ dom (accounts (self w))) by (by apply elem_of_dom).
  assert (to_acc_no ∈ dom (accounts (self w))) by (by apply elem_of_dom).
  destruct (Z_le_gt_dec amount 0).
  { by rewrite transfer_raises_amount. }
  destruct (Z_le_gt_dec amount (balance acc_f)).
  - erewrite transfer_returns by (done || lia). intros [= <-].
    exists acc_f, acc_t. repeat split; (done || lia).
  - by erewrite transfer_raises_insufficient by (done || lia).
Qed.

(** *** Single-account operations reach one slot of the dict *)


(** *** The sum of the balances *)



(** *** The two ways through [create_account] *)

Lemma create_account_raises k name initial_deposit w :
  k ∈ dom (accounts (self w)) →
  create_account k name initial_deposit w =
    (inl (ValueError "Account number already exists."), w).
Proof.
  intros Hk. unfold create_account, bind, gets. by rewrite bool_decide_true.
Qed.

Lemma create_account_returns k name initial_deposit w :
  k ∉ dom (accounts (self w)) →
  create_account k name initial_deposit w =
    (inr tt,
     mkWorld
       (mkBank (bank_name (self w))
          (<[k := Account_init k name initial_deposit]> (accounts (self w))))
       (stdout w ++ ["Account created successfully for " +:+ name +:+
                     " (A/C No: " +:+ k +:+ ")"])
       (files w)).
Proof.
  intros Hk. unfold create_account, bind, gets. by rewrite bool_decide_false.
Qed.

End bank_lemmas.



(** A transfer to an account that does not exist: nothing is debited. *)
Example transfer_to_missing_account :
  transfer "2024-01-01 11:00:00" "2024-01-01 11:00:01" "1001" "9999" 100 scenario_world
  = (inl (AccountNotFoundError "Account not found."), scenario_world).
Proof. vm_compute. reflexivity. Qed.

(** The example scenario of the specification, run on the code. *)
Example scenario_balances :
  balance <$> accounts (self scenario_world) !! "1001" = Some 400 ∧
  balance <$> accounts (self scenario_world) !! "1002" = Some 300.
Proof. split; vm_compute; reflexivity. Qed.


(** The frame property on the example scenario: the total of 700 survives
    the transfer of 300. *)
Example scenario_total : total_balance (accounts (self scenario_world)) = 700.
Proof. vm_compute. reflexivity. Qed.

(** C5, as the code has it: with [from_acc_no ≠ to_acc_no] and
    [amount ≤ 0], [transfer] raises and changes nothing; the error is the
    invalid amount when both accounts exist, and the missing account when
    either of them does not, because both lookups come before the test of
    the amount. *)
Theorem transfer_nonpositive_amount (now_w now_d from_acc_no to_acc_no : string)
    (amount : Z) (w : World) :
  from_acc_no ≠ to_acc_no → amount ≤ 0 →
  ∃ e, transfer now_w now_d from_acc_no to_acc_no amount w = (inl e, w) ∧
    (from_acc_no ∈ dom (accounts (self w)) ∧ to_acc_no ∈ dom (accounts (self w)) →
       kind_of e = Some InvalidAmount) ∧
    (from_acc_no ∉ dom (accounts (self w)) ∨ to_acc_no ∉ dom (accounts (self w)) →
       kind_of e = Some AccountNotFound).
Proof.
  intros Hne Hle.
  destruct (decide (from_acc_no ∈ dom (accounts (self w)))) as [Hfrom|Hfrom];
    [destruct (decide (to_acc_no ∈ dom (accounts (self w)))) as [Hto|Hto]|].
  - eexists. split; [by apply transfer_raises_amount|]. split; [done | tauto].
  - eexists. split; [apply transfer_raises_missing; auto|]. split; [tauto | done].
  - eexists. split; [apply transfer_raises_missing; auto|]. split; [tauto | done].
Qed.

Lemma transfer_nonpositive_amount_witness :
  "1001" ≠ "1002" ∧ -5 ≤ 0 ∧
  ∃ e, transfer "2024-01-01 11:00:00" "2024-01-01 11:00:01" "1001" "1002" (-5)
         scenario_world = (inl e, scenario_world) ∧
    ("1001" ∈ dom (accounts (self scenario_world)) ∧
     "1002" ∈ dom (accounts (self scenario_world)) →
       kind_of e = Some InvalidAmount) ∧
    ("1001" ∉ dom (accounts (self scenario_world)) ∨
     "1002" ∉ dom (accounts (self scenario_world)) →
       kind_of e = Some AccountNotFound).
Proof.
  split; [discriminate|]. split; [lia|].
  apply (transfer_nonpositive_amount "2024-01-01 11:00:00" "2024-01-01 11:00:01"
           "1001" "1002" (-5) scenario_world); [discriminate | lia].
Defined.

(** C5 as stated fails: a transfer of a non-positive amount between two
    different account numbers that do not exist raises
    [AccountNotFoundError], not the [ValueError] of an invalid amount. *)
Lemma transfer_nonpositive_amount_counterexample :
  "1001" ≠ "1002" ∧ 0 ≤ 0 ∧
  transfer "2024-01-01 11:00:00" "2024-01-01 11:00:01" "1001" "1002" 0 fresh_world
    = (inl (AccountNotFoundError "Account not found."), fresh_world) ∧
  kind_of (AccountNotFoundError "Account not found.") = Some AccountNotFound ∧
  kind_of (AccountNotFoundError "Account not found.") ≠ Some InvalidAmount.
Proof.
  split; [discriminate|]. split; [lia|]. split; [vm_compute; reflexivity|].
  split; [reflexivity | discriminate].
Qed.

(** C6: [create_account] with an account number already present raises the
    [ValueError] of a duplicate and leaves the world, hence the account that
    was there first, as it was; with a fresh number it returns, and the
    accounts are the old ones plus a new account with that number, the given
    name and initial balance, and no history. *)
Theorem create_account_spec (k name : string) (initial_deposit : Z) (w : World) :
  (k ∈ dom (accounts (self w)) →
     ∃ e, create_account k name initial_deposit w = (inl e, w) ∧
       kind_of e = Some DuplicateAccount) ∧
  (k ∉ dom (accounts (self w)) →
     ∃ w', create_account k name initial_deposit w = (inr tt, w') ∧
       accounts (self w') = <[k := mkAccount k name initial_deposit []]> (accounts (self w)) ∧
       accounts (self w') !! k = Some (mkAccount k name initial_deposit []) ∧
       (∀ j, j ≠ k → accounts (self w') !! j = accounts (self w) !! j)).
Proof.
  split; intros Hk.
  - eexists. split; [by apply create_account_raises | done].
  - eexists. split; [by apply create_account_returns|]. simpl.
    split; [reflexivity|]. split; [by rewrite lookup_insert_eq|].
    intros j Hj. by rewrite lookup_insert_ne.
Qed.

(** Creating the account of Asha a second time, on the example scenario. *)
Example create_account_twice :
  create_account "1001" "Someone else" 10 scenario_world
  = (inl (ValueError "Account number already exists."), scenario_world).
Proof. vm_compute. reflexivity. Qed.



(** ** Persistence *)

Section persistence.
Implicit Types (w : World) (data : gmap string json_account).

Lemma save_data_returns filename w :
  save_data filename w =
    (inr tt,
     mkWorld (self w) (stdout w ++ [" Bank data saved successfully."])
       (<[filename := json_of_account <$> accounts (self w)]> (files w))).
Proof. reflexivity. Qed.

Lemma load_data_returns filename data w :
  files w !! filename = Some data →
  load_data filename w =
    (inr tt,
     mkWorld
       (mkBank (bank_name (self w)) (map_fold load_item (accounts (self w)) data))
       (stdout w ++ [" Bank data loaded successfully."])
       (files w)).
Proof.
  intros Hfile. unfold load_data, try_except, read_json, bind, gets.
  by rewrite Hfile.
Qed.

(** The loop of [load_data] overwrites the slot of every account number
    of the file and leaves the other slots alone. *)
Lemma lookup_load_items data (accs : gmap string Account) k :
  map_fold load_item accs data !! k =
    match data !! k with
    | Some info =>
        Some (mkAccount k (json_name info) (json_balance info)
                (JList <$> json_transactions info))
    | None => accs !! k
    end.
Proof.
  revert k. apply (map_fold_weak_ind (λ r m, ∀ k, r !! k = match m !! k with
    | Some info =>
        Some (mkAccount k (json_name info) (json_balance info)
                (JList <$> json_transactions info))
    | None => accs !! k
    end)).
  - intros k. by rewrite lookup_empty.
  - intros i info m r Hi IH k. unfold load_item.
    destruct (decide (i = k)) as [->|Hik].
    + by rewrite !lookup_insert_eq.
    + by rewrite !lookup_insert_ne.
Qed.

Lemma relist_lists (l : list entry) :
  Forall (λ e, ∃ items, e = JList items) l →
  (λ e, JList (json_of_entry e)) <$> l = l.
Proof.
  induction 1 as [|e l [items ->] _ IH]; [done|].
  by rewrite fmap_cons, IH.
Qed.

End persistence.



(** Account B, which has no history, comes back identical. *)
Example roundtrip_empty_history :
  accounts (self (snd (load_data "bank_data.json"
     (mkWorld (Bank_init "AI National Bank") []
        (files (snd (save_data "bank_data.json" roundtrip_world))))))) !! "B"
  = accounts (self roundtrip_world) !! "B".
Proof. vm_compute. reflexivity. Qed.

(** * Further properties of the bank *)

(** ** Every call either raises and changes nothing, or has its effect *)

Section outcomes.
Implicit Types (w : World) (acc : Account) (c : command).

Lemma on_account_missing {A} k (method : M Account A) (after : M World unit) w :
  accounts (self w) !! k = None →
  (let* r := get_account k in call r method >> after) w =
    (inl (AccountNotFoundError "Account not found."), w).
Proof.
  intros Hk%not_elem_of_dom. unfold bind at 1. by rewrite get_account_missing.
Qed.

Lemma on_account_raises {A} k (method : M Account A) (after : M World unit) acc e w :
  accounts (self w) !! k = Some acc →
  method acc = (inl e, acc) →
  (let* r := get_account k in call r method >> after) w = (inl e, w).
Proof.
  intros Hk Hm. unfold bind at 1.
  rewrite get_account_found by (by apply elem_of_dom).
  unfold bind. by rewrite (call_raise_unchanged _ _ _ _ _ Hk Hm).
Qed.

Lemma on_account_returns {A} k (method : M Account A) line acc v acc' w :
  accounts (self w) !! k = Some acc →
  method acc = (inr v, acc') →
  (let* r := get_account k in call r method >> print line) w =
    (inr tt,
     mkWorld (mkBank (bank_name (self w)) (<[k := acc']> (accounts (self w))))
       (stdout w ++ [line]) (files w)).
Proof.
  intros Hk Hm. unfold bind at 1.
  rewrite get_account_found by (by apply elem_of_dom).
  unfold bind. by rewrite (call_found _ _ _ _ Hk), Hm.
Qed.

Lemma load_data_nothing filename w :
  files w !! filename = None →
  load_data filename w =
    (inr tt,
     mkWorld (self w) (stdout w ++ [" No previous data found. Starting fresh."])
       (files w)).
Proof.
  intros Hmiss. unfold load_data, try_except, read_json, bind, gets.
  by rewrite Hmiss.
Qed.

Lemma deposit_returns_snd now amount acc :
  0 < amount → deposit now amount acc = (inr tt, snd (deposit now amount acc)).
Proof. intros Hpos. by rewrite deposit_returns. Qed.

Lemma withdraw_returns_snd now amount acc :
  0 < amount ≤ balance acc →
  withdraw now amount acc = (inr tt, snd (withdraw now amount acc)).
Proof. intros [Hpos Hle]. by rewrite withdraw_returns. Qed.

Lemma deposit_to_account_outcome now k amount w :
  (∃ e, deposit_to_account now k amount w = (inl e, w) ∧ is_Some (kind_of e)) ∨
  (∃ w', deposit_to_account now k amount w = (inr tt, w') ∧
         effect (DepositTo now k amount) w w').
Proof.
  unfold deposit_to_account.
  destruct (accounts (self w) !! k) as [acc|] eqn:Hk.
  - destruct (Z_le_gt_dec amount 0).
    + raises_by ltac:(eapply on_account_raises; [done | by apply deposit_raises]).
    + returns_by
        ltac:(erewrite on_account_returns;
              [done | done | apply deposit_returns_snd; lia])
        ltac:(apply (effect_deposited _ _ _ acc); [done | lia]).
  - raises_by ltac:(by apply on_account_missing).
Qed.

Lemma withdraw_from_account_outcome now k amount w :
  (∃ e, withdraw_from_account now k amount w = (inl e, w) ∧ is_Some (kind_of e)) ∨
  (∃ w', withdraw_from_account now k amount w = (inr tt, w') ∧
         effect (WithdrawFrom now k amount) w w').
Proof.
  unfold withdraw_from_account.
  destruct (accounts (self w) !! k) as [acc|] eqn:Hk.
  - destruct (Z_le_gt_dec amount 0); [|destruct (Z_le_gt_dec amount (balance acc))].
    + raises_by
        ltac:(eapply on_account_raises; [done | by apply withdraw_raises_invalid]).
    + returns_by
        ltac:(erewrite on_account_returns;
              [done | done | apply withdraw_returns_snd; lia])
        ltac:(apply (effect_withdrawn _ _ _ acc); [done | lia]).
    + raises_by
        ltac:(eapply on_account_raises;
              [done | apply withdraw_raises_insufficient; lia]).
  - raises_by ltac:(by apply on_account_missing).
Qed.

Lemma transfer_outcome now_w now_d k_f k_t amount w :
  (∃ e, transfer now_w now_d k_f k_t amount w = (inl e, w) ∧ is_Some (kind_of e)) ∨
  (∃ w', transfer now_w now_d k_f k_t amount w = (inr tt, w') ∧
         effect (Transfer now_w now_d k_f k_t amount) w w').
Proof.
  destruct (decide (k_f = k_t)) as [->|Hne].
  { raises_by ltac:(apply transfer_raises_same). }
  destruct (accounts (self w) !! k_f) as [acc_f|] eqn:Hf; last first.
  { apply not_elem_of_dom in Hf.
    raises_by ltac:(apply transfer_raises_missing; auto). }
  destruct (accounts (self w) !! k_t) as [acc_t|] eqn:Ht; last first.
  { apply not_elem_of_dom in Ht.
    raises_by ltac:(apply transfer_raises_missing; auto). }
  assert (k_f ∈ dom (accounts (self w))) by (by apply elem_of_dom).
  assert (k_t ∈ dom (accounts (self w))) by (by apply elem_of_dom).
  destruct (Z_le_gt_dec amount 0).
  { raises_by ltac:(by apply transfer_raises_amount). }
  destruct (Z_le_gt_dec amount (balance acc_f)).
  - returns_by
      ltac:(apply (transfer_returns _ _ _ _ _ _ acc_f acc_t); (done || lia))
      ltac:(apply effect_transferred; (done || lia)).
  - raises_by
      ltac:(apply (transfer_raises_insufficient _ _ _ _ _ _ acc_f); (done || lia)).
Qed.

Lemma run_command_outcome c w :
  (∃ e, run_command c w = (inl e, w) ∧ is_Some (kind_of e)) ∨
  (∃ w', run_command c w = (inr tt, w') ∧ effect c w w').
Proof.
  destruct c as [k name d|now k amount|now k amount|now_w now_d k_f k_t amount|f|f];
    simpl.
  - destruct (accounts (self w) !! k) as [acc|] eqn:Hk.
    + raises_by ltac:(apply create_account_raises; by apply elem_of_dom).
    + returns_by
        ltac:(apply create_account_returns; by apply not_elem_of_dom)
        ltac:(by apply effect_created).
  - apply deposit_to_account_outcome.
  - apply withdraw_from_account_outcome.
  - apply transfer_outcome.
  - returns_by ltac:(apply save_data_returns) ltac:(apply effect_saved).
  - destruct (files w !! f) as [data|] eqn:Hf.
    + returns_by ltac:(by apply load_data_returns) ltac:(by apply effect_loaded).
    + returns_by ltac:(by apply load_data_nothing)
        ltac:(by apply effect_nothing_to_load).
Qed.

(** The world after a call: the same world, or the effect of the call. *)
Lemma run_command_effect c w :
  snd (run_command c w) = w ∨ effect c w (snd (run_command c w)).
Proof.
  destruct (run_command_outcome c w) as [(e & -> & _)|(w' & -> & Heff)]; auto.
Qed.

End outcomes.






(** X5: a [transfer] that returns has appended one withdrawal entry, with the
    clock reading of the withdrawal, to the history of the source, and one
    deposit entry to the history of the destination; names and numbers are
    untouched, one line has been printed and no file has changed. *)
Theorem transfer_records_both_sides (now_w now_d k_f k_t : string) (amount : Z)
    (w w' : World) :
  transfer now_w now_d k_f k_t amount w = (inr tt, w') →
  ∃ acc_f acc_t,
    accounts (self w) !! k_f = Some acc_f ∧
    accounts (self w) !! k_t = Some acc_t ∧
    accounts (self w') !! k_f =
      Some (mkAccount (account_number acc_f) (name acc_f) (balance acc_f - amount)
              (transactions acc_f ++
                 [Tuple now_w ("Withdrew " +:+ rupee +:+ str amount)])) ∧
    accounts (self w') !! k_t =
      Some (mkAccount (account_number acc_t) (name acc_t) (balance acc_t + amount)
              (transactions acc_t ++
                 [Tuple now_d ("Deposited " +:+ rupee +:+ str amount)])) ∧
    stdout w' =
      stdout w ++ [rupee +:+ str amount +:+ " transferred from A/C " +:+ k_f +:+
                   " to A/C " +:+ k_t] ∧
    files w' = files w.
Proof.
  intros Hrun.
  pose proof Hrun as (acc_f & acc_t & Hne & Hf & Ht & [Hpos Hle] & _)%transfer_return_inv.
  rewrite (transfer_returns _ _ _ _ _ _ acc_f acc_t) in Hrun by done.
  injection Hrun as <-. simpl.
  rewrite withdraw_returns, deposit_returns by done. simpl.
  exists acc_f, acc_t. split; [done|]. split; [done|].
  split; [by rewrite lookup_insert_ne, lookup_insert_eq|].
  split; [by rewrite lookup_insert_eq | done].
Qed.

Lemma transfer_records_both_sides_witness :
  ∃ w',
    transfer "2024-01-01 11:00:00" "2024-01-01 11:00:01" "1002" "1001" 100
      scenario_world = (inr tt, w') ∧
    ∃ acc_f acc_t,
      accounts (self scenario_world) !! "1002" = Some acc_f ∧
      accounts (self scenario_world) !! "1001" = Some acc_t ∧
      accounts (self w') !! "1002" =
        Some (mkAccount (account_number acc_f) (name acc_f) (balance acc_f - 100)
                (transactions acc_f ++
                   [Tuple "2024-01-01 11:00:00" ("Withdrew " +:+ rupee +:+ str 100)])) ∧
      accounts (self w') !! "1001" =
        Some (mkAccount (account_number acc_t) (name acc_t) (balance acc_t + 100)
                (transactions acc_t ++
                   [Tuple "2024-01-01 11:00:01" ("Deposited " +:+ rupee +:+ str 100)])) ∧
      stdout w' =
        stdout scenario_world ++
          [rupee +:+ str 100 +:+ " transferred from A/C " +:+ "1002" +:+
           " to A/C " +:+ "1001"] ∧
      files w' = files scenario_world.
Proof.
  eexists. split.
  - vm_compute. reflexivity.
  - apply (transfer_records_both_sides "2024-01-01 11:00:00" "2024-01-01 11:00:01"
             "1002" "1001" 100 scenario_world).
    vm_compute. reflexivity.
Defined.

(** X6: the order in which [transfer] reports errors.  Equal account
    numbers are rejected first, even when the account does not exist or the
    amount is not positive; then a missing account, even when the amount is
    not positive; then a non-positive amount; and last an amount above the
    source balance.  None of them changes the world. *)
Theorem transfer_error_order (now_w now_d k_f k_t : string) (amount : Z) (w : World) :
  (k_f = k_t →
     ∃ e, transfer now_w now_d k_f k_t amount w = (inl e, w) ∧
       kind_of e = Some SameAccountTransfer) ∧
  (k_f ≠ k_t →
   k_f ∉ dom (accounts (self w)) ∨ k_t ∉ dom (accounts (self w)) →
     ∃ e, transfer now_w now_d k_f k_t amount w = (inl e, w) ∧
       kind_of e = Some AccountNotFound) ∧
  (k_f ≠ k_t →
   k_f ∈ dom (accounts (self w)) → k_t ∈ dom (accounts (self w)) →
   amount ≤ 0 →
     ∃ e, transfer now_w now_d k_f k_t amount w = (inl e, w) ∧
       kind_of e = Some InvalidAmount) ∧
  (∀ acc_f, k_f ≠ k_t →
   accounts (self w) !! k_f = Some acc_f → k_t ∈ dom (accounts (self w)) →
   0 < amount → balance acc_f < amount →
     ∃ e, transfer now_w now_d k_f k_t amount w = (inl e, w) ∧
       kind_of e = Some InsufficientFunds).
Proof.
  split; [|split; [|split]].
  - intros ->. eexists. split; [apply transfer_raises_same | done].
  - intros Hne Hmiss. eexists. split; [by apply transfer_raises_missing | done].
  - intros Hne Hf Ht Hle. eexists. split; [by apply transfer_raises_amount | done].
  - intros acc_f Hne Hf Ht Hpos Hgt. eexists.
    split; [by apply (transfer_raises_insufficient _ _ _ _ _ _ acc_f) | done].
Qed.

(** ** What sequences of calls keep *)

Section invariants.
Implicit Types (w : World) (acc : Account) (c : command) (cs : list command).

(** Whatever a method of [Account] does, it keeps the number and the name
    of the account and only ever appends to its history. *)
Lemma deposit_keeps now amount acc :
  account_number (snd (deposit now amount acc)) = account_number acc ∧
  name (snd (deposit now amount acc)) = name acc ∧
  transactions acc `prefix_of` transactions (snd (deposit now amount acc)).
Proof.
  destruct (Z_le_gt_dec amount 0).
  - by rewrite deposit_raises.
  - rewrite deposit_returns by lia. simpl. repeat split. by apply prefix_app_r.
Qed.

Lemma withdraw_keeps now amount acc :
  account_number (snd (withdraw now amount acc)) = account_number acc ∧
  name (snd (withdraw now amount acc)) = name acc ∧
  transactions acc `prefix_of` transactions (snd (withdraw now amount acc)).
Proof.
  destruct (Z_le_gt_dec amount 0); [by rewrite withdraw_raises_invalid|].
  destruct (Z_le_gt_dec amount (balance acc)).
  - rewrite withdraw_returns by lia. simpl. repeat split. by apply prefix_app_r.
  - by rewrite withdraw_raises_insufficient by lia.
Qed.

(** A property of worlds that the effect of every allowed call keeps is
    kept by every sequence of allowed calls. *)
Lemma run_commands_keep (P : World → Prop) (allowed : command → bool) :
  (∀ c w w', allowed c = true → effect c w w' → P w → P w') →
  ∀ cs w, forallb allowed cs = true → P w → P (run_commands cs w).
Proof.
  intros Hstep cs. induction cs as [|c cs IH]; intros w Hall HP; [done|].
  simpl in Hall. apply andb_true_iff in Hall as [Hc Hcs].
  simpl. apply IH; [done|].
  destruct (run_command_effect c w) as [->|Heff]; [done|].
  by apply (Hstep c w).
Qed.

Lemma forallb_all_true cs : forallb (λ _ : command, true) cs = true.
Proof. by induction cs. Qed.

Lemma lookup_load_items_Some data (accs : gmap string Account) k acc' :
  map_fold load_item accs data !! k = Some acc' →
  (∃ info, data !! k = Some info ∧
     acc' = mkAccount k (json_name info) (json_balance info)
              (JList <$> json_transactions info)) ∨
  (data !! k = None ∧ accs !! k = Some acc').
Proof.
  rewrite lookup_load_items. destruct (data !! k) as [info|].
  - intros [= <-]. left. by exists info.
  - intros Hk. by right.
Qed.

Lemma effect_keyed c w w' :
  effect c w w' → keyed (accounts (self w)) → keyed (accounts (self w')).
Proof.
  unfold keyed.
  destruct 1 as [k nm d w Hk|now k amount acc w Hk Hpos|now k amount acc w Hk Ham
                |now_w now_d k_f k_t amount acc_f acc_t w Hne Hf Ht Ham
                |f w|f data w Hf|f w Hf]; simpl; intros Hkeyed; try done.
  - by apply map_Forall_insert_2.
  - apply map_Forall_insert_2; [|done].
    destruct (deposit_keeps now amount acc) as [-> _]. by apply (Hkeyed k).
  - apply map_Forall_insert_2; [|done].
    destruct (withdraw_keeps now amount acc) as [-> _]. by apply (Hkeyed k).
  - apply map_Forall_insert_2; [|apply map_Forall_insert_2; [|done]].
    + destruct (deposit_keeps now_d amount acc_t) as [-> _]. by apply (Hkeyed k_t).
    + destruct (withdraw_keeps now_w amount acc_f) as [-> _]. by apply (Hkeyed k_f).
  - intros k acc' [(info & _ & ->)|[_ Hk]]%lookup_load_items_Some; [done|].
    by apply (Hkeyed k).
Qed.

Lemma effect_dom c w w' :
  effect c w w' → dom (accounts (self w)) ⊆ dom (accounts (self w')).
Proof.
  destruct 1; simpl; try done; try apply dom_insert_subseteq.
  - etrans; apply dom_insert_subseteq.
  - intros k [acc Hk]%elem_of_dom. apply elem_of_dom.
    rewrite lookup_load_items. destruct (data !! k); eauto.
Qed.

Lemma extends_refl acc : extends acc acc.
Proof. done. Qed.

Lemma extends_trans acc1 acc2 acc3 :
  extends acc1 acc2 → extends acc2 acc3 → extends acc1 acc3.
Proof.
  intros (Hn1 & Hh1 & Ht1) (Hn2 & Hh2 & Ht2). unfold extends.
  rewrite Hn2, Hh2. repeat split; [done..|]. by etrans.
Qed.

Lemma effect_extends c w w' k acc :
  is_LoadData c = false →
  effect c w w' →
  accounts (self w) !! k = Some acc →
  ∃ acc', accounts (self w') !! k = Some acc' ∧ extends acc acc'.
Proof.
  intros Hload Heff Hk.
  destruct Heff as [j nm d w Hj|now j amount acc0 w Hj Hpos|now j amount acc0 w Hj Ham
                   |now_w now_d k_f k_t amount acc_f acc_t w Hne Hf Ht Ham
                   |f w|f data w Hf|f w Hf]; simpl in *; try done;
    try (exists acc; split; [done | apply extends_refl]).
  - exists acc. split; [|apply extends_refl].
    rewrite lookup_insert_ne; [done | congruence].
  - destruct (decide (j = k)) as [->|Hjk].
    + rewrite lookup_insert_eq. eexists. split; [done|].
      assert (acc0 = acc) as -> by congruence. apply deposit_keeps.
    + rewrite lookup_insert_ne by done. exists acc. by split.
  - destruct (decide (j = k)) as [->|Hjk].
    + rewrite lookup_insert_eq. eexists. split; [done|].
      assert (acc0 = acc) as -> by congruence. apply withdraw_keeps.
    + rewrite lookup_insert_ne by done. exists acc. by split.
  - destruct (decide (k_t = k)) as [->|Htk]; [|destruct (decide (k_f = k)) as [->|Hfk]].
    + rewrite lookup_insert_eq. eexists. split; [done|].
      assert (acc_t = acc) as -> by congruence. apply deposit_keeps.
    + rewrite lookup_insert_ne, lookup_insert_eq by done. eexists. split; [done|].
      assert (acc_f = acc) as -> by congruence. apply withdraw_keeps.
    + rewrite !lookup_insert_ne by done. exists acc. by split.
Qed.

Lemma effect_files c w w' :
  is_SaveData c = false → effect c w w' → files w' = files w.
Proof. intros Hsave. by destruct 1. Qed.



(** *** The round trip through a file *)

Lemma json_of_entry_JList (l : list (list string)) :
  json_of_entry <$> (JList <$> l) = l.
Proof. induction l as [|x l IH]; [done|]. by rewrite !fmap_cons, IH. Qed.

Lemma json_of_loaded k info :
  json_of_account
    (mkAccount k (json_name info) (json_balance info) (JList <$> json_transactions info))
  = info.
Proof.
  destruct info as [nm b l]. unfold json_of_account. simpl.
  by rewrite json_of_entry_JList.
Qed.

Lemma json_of_load_items data :
  json_of_account <$> map_fold load_item ∅ data = data.
Proof.
  apply map_eq. intros k. rewrite lookup_fmap, lookup_load_items.
  destruct (data !! k) as [info|]; simpl; [|by rewrite lookup_empty].
  by rewrite json_of_loaded.
Qed.

Lemma lookup_reloaded accs k :
  reloaded accs !! k =
    (λ acc, mkAccount k (name acc) (balance acc)
              ((λ e, JList (json_of_entry e)) <$> transactions acc)) <$> accs !! k.
Proof.
  unfold reloaded. rewrite lookup_load_items, lookup_fmap.
  destruct (accs !! k) as [acc|]; simpl; [|by rewrite lookup_empty].
  by rewrite <-list_fmap_compose.
Qed.

Lemma relist_is_lists (l : list entry) :
  Forall (λ e, ∃ items, e = JList items) ((λ e, JList (json_of_entry e)) <$> l).
Proof. induction l; constructor; eauto. Qed.

End invariants.

(** X7: in a bank that started empty, after any sequence of calls and
    whatever the files on disk hold, every account sits in the dict under
    its own account number. *)
Theorem accounts_keyed_by_number (cs : list command) (bank_name' : string)
    (out : list string) (fs : gmap string (gmap string json_account)) :
  ∀ k acc,
    accounts (self (run_commands cs (mkWorld (Bank_init bank_name') out fs))) !! k
      = Some acc →
    account_number acc = k.
Proof.
  apply (run_commands_keep (λ w, keyed (accounts (self w))) (λ _, true)).
  - intros c w w' _ Heff. by apply (effect_keyed c).
  - apply forallb_all_true.
  - intros k acc. simpl. by rewrite lookup_empty.
Qed.

Lemma accounts_keyed_by_number_witness :
  let cs := [CreateAccount "1001" "Asha" 500;
             LoadData "bank_data.json";
             DepositTo "2024-01-02 09:00:00" "B" 25] in
  let fs := files (snd (save_data "bank_data.json" roundtrip_world)) in
  accounts (self (run_commands cs (mkWorld (Bank_init "AI National Bank") [] fs))) !! "B"
    = Some (mkAccount "B" "Ravi" 75
              [Tuple "2024-01-02 09:00:00" ("Deposited " +:+ rupee +:+ "25")]) ∧
  account_number
    (mkAccount "B" "Ravi" 75
       [Tuple "2024-01-02 09:00:00" ("Deposited " +:+ rupee +:+ "25")]) = "B".
Proof.
  cbv zeta.
  assert (Hk : accounts (self (run_commands
                 [CreateAccount "1001" "Asha" 500;
                  LoadData "bank_data.json";
                  DepositTo "2024-01-02 09:00:00" "B" 25]
                 (mkWorld (Bank_init "AI National Bank") []
                    (files (snd (save_data "bank_data.json" roundtrip_world)))))) !! "B"
               = Some (mkAccount "B" "Ravi" 75
                         [Tuple "2024-01-02 09:00:00" ("Deposited " +:+ rupee +:+ "25")]))
    by (vm_compute; reflexivity).
  split; [exact Hk|].
  exact (accounts_keyed_by_number _ _ _ _ _ _ Hk).
Defined.

(** X8: no call ever removes an account: every account number of the bank
    is still there after any sequence of calls, returned or raised. *)
Theorem accounts_never_removed (cs : list command) (w : World) :
  dom (accounts (self w)) ⊆ dom (accounts (self (run_commands cs w))).
Proof.
  apply (run_commands_keep
           (λ w', dom (accounts (self w)) ⊆ dom (accounts (self w'))) (λ _, true)).
  - intros c w1 w2 _ Heff Hsub. etrans; [done | by apply (effect_dom c)].
  - apply forallb_all_true.
  - done.
Qed.

(** X9: as long as nothing is loaded from a file, an account keeps its
    number and its holder name for ever and its history only grows at the
    end: after any sequence of calls the old history is a prefix of the new
    one. *)
Theorem history_append_only (cs : list command) (w : World) (k : string)
    (acc : Account) :
  forallb (λ c, negb (is_LoadData c)) cs = true →
  accounts (self w) !! k = Some acc →
  ∃ acc', accounts (self (run_commands cs w)) !! k = Some acc' ∧
    account_number acc' = account_number acc ∧
    name acc' = name acc ∧
    transactions acc `prefix_of` transactions acc'.
Proof.
  intros Hcs Hk.
  apply (run_commands_keep
           (λ w', ∃ acc', accounts (self w') !! k = Some acc' ∧ extends acc acc')
           (λ c, negb (is_LoadData c))); [|done|].
  - intros c w1 w2 Hc%negb_true_iff Heff (acc1 & Hk1 & Hext1).
    destruct (effect_extends c w1 w2 k acc1 Hc Heff Hk1) as (acc2 & Hk2 & Hext2).
    exists acc2. split; [done|]. by apply (extends_trans _ acc1).
  - exists acc. split; [done | apply extends_refl].
Qed.

Lemma history_append_only_witness :
  let cs := [WithdrawFrom "2024-01-02 09:00:00" "1001" 150;
             Transfer "2024-01-02 09:01:00" "2024-01-02 09:01:01" "1001" "1002" 5000;
             SaveData "bank_data.json";
             DepositTo "2024-01-02 09:02:00" "1001" 1] in
  forallb (λ c, negb (is_LoadData c)) cs = true ∧
  accounts (self scenario_world) !! "1001" =
    Some (mkAccount "1001" "Asha" 400
            [Tuple "2024-01-01 10:00:00" ("Deposited " +:+ rupee +:+ "200");
             Tuple "2024-01-01 10:05:00" ("Withdrew " +:+ rupee +:+ "300")]) ∧
  ∃ acc', accounts (self (run_commands cs scenario_world)) !! "1001" = Some acc' ∧
    account_number acc' = "1001" ∧
    name acc' = "Asha" ∧
    [Tuple "2024-01-01 10:00:00" ("Deposited " +:+ rupee +:+ "200");
     Tuple "2024-01-01 10:05:00" ("Withdrew " +:+ rupee +:+ "300")]
      `prefix_of` transactions acc'.
Proof.
  cbv zeta. split; [reflexivity|]. split; [vm_compute; reflexivity|].
  apply (history_append_only
           [WithdrawFrom "2024-01-02 09:00:00" "1001" 150;
            Transfer "2024-01-02 09:01:00" "2024-01-02 09:01:01" "1001" "1002" 5000;
            SaveData "bank_data.json";
            DepositTo "2024-01-02 09:02:00" "1001" 1]
           scenario_world "1001"
           (mkAccount "1001" "Asha" 400
              [Tuple "2024-01-01 10:00:00" ("Deposited " +:+ rupee +:+ "200");
               Tuple "2024-01-01 10:05:00" ("Withdrew " +:+ rupee +:+ "300")]));
    [reflexivity | vm_compute; reflexivity].
Defined.



(** X11: the round trip through the bank is exact on files: loading a file
    into a bank that has no accounts and saving that bank writes the very
    document that was loaded. *)
Theorem load_then_save_same_document (source target bank_name' : string)
    (out : list string) (fs : gmap string (gmap string json_account))
    (data : gmap string json_account) :
  fs !! source = Some data →
  files (run_commands [LoadData source; SaveData target]
           (mkWorld (Bank_init bank_name') out fs))
  = <[target := data]> fs.
Proof.
  intros Hfile. simpl.
  rewrite (load_data_returns source data) by done. simpl.
  by rewrite json_of_load_items.
Qed.

Lemma load_then_save_same_document_witness :
  let fs := files (snd (save_data "bank_data.json" roundtrip_world)) in
  let data := json_of_account <$> accounts (self roundtrip_world) in
  fs !! "bank_data.json" = Some data ∧
  files (run_commands [LoadData "bank_data.json"; SaveData "copy.json"]
           (mkWorld (Bank_init "AI National Bank") [] fs))
  = <["copy.json" := data]> fs.
Proof.
  cbv zeta. split; [vm_compute; reflexivity|].
  apply (load_then_save_same_document "bank_data.json" "copy.json"
           "AI National Bank" []
           (files (snd (save_data "bank_data.json" roundtrip_world)))
           (json_of_account <$> accounts (self roundtrip_world))).
  vm_compute. reflexivity.
Defined.

(** X12: only [save_data] writes to disk: after any sequence of calls that
    saves nothing, the files are what they were, whatever was created,
    deposited, withdrawn, transferred or loaded meanwhile. *)
Theorem disk_written_only_by_save (cs : list command) (w : World) :
  forallb (λ c, negb (is_SaveData c)) cs = true →
  files (run_commands cs w) = files w.
Proof.
  intros Hcs.
  apply (run_commands_keep (λ w', files w' = files w)
           (λ c, negb (is_SaveData c))); [|done..].
  intros c w1 w2 Hc%negb_true_iff Heff <-. by apply (effect_files c).
Qed.

Lemma disk_written_only_by_save_witness :
  let cs := [CreateAccount "1003" "Meera" 50;
             DepositTo "2024-01-02 09:00:00" "1003" 25;
             Transfer "2024-01-02 09:01:00" "2024-01-02 09:01:01" "1003" "1001" 75;
             LoadData "bank_data.json"] in
  forallb (λ c, negb (is_SaveData c)) cs = true ∧
  files (run_commands cs scenario_world) = files scenario_world.
Proof.
  cbv zeta. split; [reflexivity|].
  apply (disk_written_only_by_save
           [CreateAccount "1003" "Meera" 50;
            DepositTo "2024-01-02 09:00:00" "1003" 25;
            Transfer "2024-01-02 09:01:00" "2024-01-02 09:01:01" "1003" "1001" 75;
            LoadData "bank_data.json"] scenario_world).
  reflexivity.
Defined.



(** Without the condition on the initial deposit solvency is not kept:
    [create_account] checks nothing about it. *)
Example overdrawn_from_the_start :
  balance <$> accounts (self (run_commands [CreateAccount "1003" "Meera" (-50)]
                                fresh_world)) !! "1003" = Some (-50).
Proof. vm_compute. reflexivity. Qed.



(** X15: when the round trip through a file gives back the very same
    accounts: exactly when every account sits under its own number and every
    history entry is a list already, as in a bank that was itself loaded and
    not touched since. *)
Theorem roundtrip_exact_iff (filename bank_name' : string) (out : list string)
    (w : World) :
  accounts (self (snd (load_data filename
     (mkWorld (Bank_init bank_name') out (files (snd (save_data filename w)))))))
  = accounts (self w)
  ↔ keyed (accounts (self w)) ∧ all_lists (accounts (self w)).
Proof.
  rewrite save_data_returns. simpl.
  rewrite (load_data_returns filename (json_of_account <$> accounts (self w)))
    by (simpl; apply lookup_insert_eq).
  simpl. fold (reloaded (accounts (self w))).
  generalize (accounts (self w)). intros accs. split.
  - intros Heq. split; intros k acc Hk; rewrite <-Heq, lookup_reloaded in Hk;
      destruct (accs !! k) as [acc0|]; simplify_eq/=; [done|].
    apply relist_is_lists.
  - intros [Hkeyed Hlists]. apply map_eq. intros k. rewrite lookup_reloaded.
    destruct (accs !! k) as [acc|] eqn:Hk; [|done]. simpl. f_equal.
    specialize (Hkeyed k acc Hk). specialize (Hlists k acc Hk). simpl in *.
    destruct acc as [no nm b l]. simpl in *. subst no.
    f_equal. by apply relist_lists.
Qed.



(** X17: loading is idempotent: loading the same file a second time, whether
    it exists or not, leaves the accounts and the files as the first load
    left them. *)
Theorem load_data_twice (filename : string) (w : World) :
  accounts (self (run_commands [LoadData filename; LoadData filename] w))
  = accounts (self (run_commands [LoadData filename] w)) ∧
  files (run_commands [LoadData filename; LoadData filename] w)
  = files (run_commands [LoadData filename] w).
Proof.
  simpl. destruct (files w !! filename) as [data|] eqn:Hfile.
  - rewrite (load_data_returns filename data w) by done. simpl.
    rewrite (load_data_returns filename data) by done. simpl.
    split; [|done]. apply map_eq. intros k. rewrite !lookup_load_items.
    by destruct (data !! k).
  - rewrite (load_data_nothing filename w) by done. simpl.
    by rewrite load_data_nothing.
Qed.
